(** * base.py : LiteX SoC on the Colorlight 5A-75B

    A shallow embedding of [base.py] (clock/reset generator [_CRG], the SoC
    composition [BaseSoC] and the build/load driver [main]) together with
    the properties its specification states about it.

    Conventions.
    - Python integers are [Z].  The float literal [25e6] and [int(66e6)]
      denote exact integers and are kept as [Z] numbers of hertz.
    - Python dictionaries keyed by strings are [gmap string _].
    - Code of the LiteX/Migen framework that [base.py] only calls is either
      recorded as a call with its arguments, or modelled from the
      specification; the latter definitions say so. *)

From stdpp Require Import base gmap strings list pretty.
From Stdlib Require Import ZArith Lia Ascii String.

Open Scope string_scope.
Open Scope list_scope.
Open Scope Z_scope.

(** ** Module-level constants (lines 27-28) *)

Definition kB : Z := 1024.
Definition mB : Z := 1024 * kB.

(** ** The Python builtins the file relies on *)

Module Py.

(** Exceptions that can travel through the program.  [KeyError] is
    Python's; the others are the error taxonomy of the specification. *)
Inductive exn :=
| KeyError (key : string)
| RegionOverlapError (name : string)
| RegionRedefinedError (name : string)
| ClockSourceCycleError (domain : string)
| UnsynchronizedDomainError (domain : string)
| InvalidStateError
| ExternalToolFailure (status : Z) (diagnostic : string)
| CalledProcessError (returncode : Z) (cmd : string).

(** [min(a, b)]: the first of the smallest arguments. *)
Definition min (a b : Z) : Z := if b <? a then b else a.

(** [d[k]] on a dictionary. *)
Definition getitem {V} (d : gmap string V) (k : string) : exn + V :=
  match d !! k with
  | Some v => inr v
  | None => inl (KeyError k)
  end.

(** [os.path.join(a, b)] on POSIX, for two components. *)
Definition ends_with_slash (a : string) : bool :=
  match String.get (Nat.pred (String.length a)) a with
  | Some c => Ascii.eqb c "/"%char
  | None => false
  end.

Definition path_join (a b : string) : string :=
  match b with
  | String c _ =>
      if Ascii.eqb c "/"%char then b
      else if (String.length a =? 0)%nat || ends_with_slash a then a +:+ b
      else a +:+ "/" +:+ b
  | EmptyString =>
      if (String.length a =? 0)%nat || ends_with_slash a then a
      else a +:+ "/"
  end.

End Py.

(** ** Clock and reset generator: [_CRG] (lines 32-52) *)

Module CRG.

(** Calls made on the [ECP5PLL] object.  [phase = None] records that the
    call leaves the argument out. *)
Inductive pll_call :=
| register_clkin (pad : string) (freq : Z)
| create_clkout (cd : string) (freq : Z) (phase : option Z).

(** Migen expressions, as far as the reset guard needs them. *)
Inductive expr :=
| PllLocked
| Const (z : Z)
| Inv (e : expr)
| Or (a b : expr).

Inductive special :=
| AsyncResetSynchronizer (cd : string) (async_reset : expr)
| DDROutput (i1 i2 : Z) (o : string) (clk : string).

(** The module under construction.  Lists grow at the end, in program
    order; a clock domain [cd_x] is known to Migen under the name [x]. *)
Record t := mk {
  clock_domains : list string;
  requests      : list string;
  pll           : list pll_call;
  specials      : list special
}.

Definition empty : t := mk [] [] [] [].

Definition add_clock_domain (n : string) (c : t) : t :=
  mk (clock_domains c ++ [n]) (requests c) (pll c) (specials c).
Definition request (n : string) (c : t) : t :=
  mk (clock_domains c) (requests c ++ [n]) (pll c) (specials c).
Definition pll_do (p : pll_call) (c : t) : t :=
  mk (clock_domains c) (requests c) (pll c ++ [p]) (specials c).
Definition add_special (s : special) (c : t) : t :=
  mk (clock_domains c) (requests c) (pll c) (specials c ++ [s]).

(** [rst_n = 1] (line 41): a Python integer, so [~rst_n] is computed by
    Python before Migen sees it. *)
Definition rst_n : Z := 1.

Definition reset_guard : expr := Or (Inv PllLocked) (Const (Z.lnot rst_n)).

(** The statements of [_CRG.__init__], in program order. *)
Inductive stmt :=
| AddClockDomain (n : string)
| Request (n : string)
| PllDo (p : pll_call)
| AddSpecial (s : special).

Definition program (sys_clk_freq : Z) : list stmt :=
  [ AddClockDomain "sys";
    AddClockDomain "sys_ps";
    Request "clk25";
    PllDo (register_clkin "clk25" 25000000);
    PllDo (create_clkout "sys" sys_clk_freq None);
    PllDo (create_clkout "sys_ps" sys_clk_freq (Some 180));
    AddSpecial (AsyncResetSynchronizer "sys" reset_guard);
    Request "sdram_clock";
    AddSpecial (DDROutput 1 0 "sdram_clock" "sys_ps") ].

Definition exec (c : t) (st : stmt) : t :=
  match st with
  | AddClockDomain n => add_clock_domain n c
  | Request n => request n c
  | PllDo p => pll_do p c
  | AddSpecial sp => add_special sp c
  end.

(** [_CRG.__init__], statement by statement. *)
Definition init (sys_clk_freq : Z) : t :=
  foldl exec empty (program sys_clk_freq).

(** Value of a guard expression; the reset input is its lowest bit. *)
Fixpoint eval (locked : bool) (e : expr) : Z :=
  match e with
  | PllLocked => Z.b2z locked
  | Const z => z
  | Inv a => Z.lnot (eval locked a)
  | Or a b => Z.lor (eval locked a) (eval locked b)
  end.

Definition reset_asserted (locked : bool) (e : expr) : bool :=
  Z.testbit (eval locked e) 0.

(** The clock outputs requested from the PLL: domain, frequency, phase. *)
Definition clkouts (c : t) : list (string * Z * option Z) :=
  omap (λ p, match p with
             | create_clkout cd f ph => Some (cd, f, ph)
             | register_clkin _ _ => None
             end) (pll c).

(** Frequency and phase requested for a domain (first request wins). *)
Fixpoint lookup_clkout (cd : string) (os : list (string * Z * option Z))
  : option (Z * option Z) :=
  match os with
  | [] => None
  | (n, f, ph) :: os' =>
      if String.eqb n cd then Some (f, ph) else lookup_clkout cd os'
  end.

Definition clkout_of (c : t) (cd : string) : option (Z * option Z) :=
  lookup_clkout cd (clkouts c).

Definition clkins (c : t) : list (string * Z) :=
  omap (λ p, match p with
             | register_clkin pad f => Some (pad, f)
             | create_clkout _ _ _ => None
             end) (pll c).

End CRG.

(** ** Clock domains (specification, section 4.2) *)

Module ClockDomainManager.

Record ClockDomain := mkDomain { source : string; frequency : Z; phase : Z }.

(** The manager: external oscillators, derived domains (newest first), the
    domains whose reset is synchronized with the guard given for each, and
    the peripherals bound to a domain. *)
Record t := mk {
  sources      : list (string * Z);
  domains      : list (string * ClockDomain);
  synchronized : list (string * CRG.expr);
  bound        : list (string * string)
}.

Definition empty : t := mk [] [] [] [].

Fixpoint assoc {A} (n : string) (l : list (string * A)) : option A :=
  match l with
  | [] => None
  | (k, v) :: l' => if String.eqb k n then Some v else assoc n l'
  end.

Definition has_key {A} (n : string) (l : list (string * A)) : bool :=
  existsb (λ x, String.eqb x.1 n) l.

Definition registered (st : t) (n : string) : bool :=
  has_key n (sources st) || has_key n (domains st).

Definition domain_of (st : t) (n : string) : option ClockDomain :=
  assoc n (domains st).

Definition is_synchronized (st : t) (d : string) : bool :=
  has_key d (synchronized st).

(** Modelled from the spec: [register_source(name, frequency)]. *)
Definition register_source (st : t) (n : string) (f : Z) : t :=
  mk ((n, f) :: sources st) (domains st) (synchronized st) (bound st).

(** Modelled from the spec: [derive(name, from_domain, frequency, phase=0)]
    creates a domain and fails with ClockSourceCycleError if [from_domain]
    is not already registered; the phase is stored as it is given. *)
Definition derive (st : t) (n from : string) (f ph : Z) : Py.exn + t :=
  if registered st from then
    inr (mk (sources st) ((n, mkDomain from f ph) :: domains st)
            (synchronized st) (bound st))
  else inl (Py.ClockSourceCycleError from).

(** Modelled from the spec: [synchronize_reset(domain, guard_condition)]. *)
Definition synchronize_reset (st : t) (d : string) (guard : CRG.expr) : t :=
  mk (sources st) (domains st) ((d, guard) :: synchronized st) (bound st).

(** Modelled from the spec: [bind_check(domain)] fails with
    UnsynchronizedDomainError if called before [synchronize_reset]. *)
Definition bind_check (st : t) (d : string) : Py.exn + unit :=
  if is_synchronized st d then inr tt
  else inl (Py.UnsynchronizedDomainError d).

(** Binding a peripheral to a domain: allowed once [bind_check] passes. *)
Definition bind (st : t) (peripheral d : string) : Py.exn + t :=
  match bind_check st d with
  | inl x => inl x
  | inr _ =>
      inr (mk (sources st) (domains st) (synchronized st)
              ((peripheral, d) :: bound st))
  end.

Inductive op :=
| RegisterSource (n : string) (f : Z)
| Derive (n from : string) (f ph : Z)
| SynchronizeReset (d : string) (guard : CRG.expr)
| Bind (peripheral d : string).

Definition apply_op (st : t) (o : op) : Py.exn + t :=
  match o with
  | RegisterSource n f => inr (register_source st n f)
  | Derive n from f ph => derive st n from f ph
  | SynchronizeReset d guard => inr (synchronize_reset st d guard)
  | Bind peripheral d => bind st peripheral d
  end.

(** A sequence of operations, stopping at the first error. *)
Fixpoint run (st : t) (ops : list op) : Py.exn + t :=
  match ops with
  | [] => inr st
  | o :: ops' =>
      match apply_op st o with
      | inl x => inl x
      | inr st' => run st' ops'
      end
  end.

(** Every peripheral bound so far is bound to a synchronized domain. *)
Definition bound_ok (st : t) : Prop :=
  ∀ per d, (per, d) ∈ bound st → is_synchronized st d = true.

Definition derives (n : string) (o : op) : bool :=
  match o with
  | Derive m _ _ _ => String.eqb m n
  | _ => false
  end.

End ClockDomainManager.

(** The statements of the clock generator as operations of the manager:
    [register_clkin] registers the oscillator, [create_clkout] derives a
    domain from the oscillator registered last (phase 0 when the argument is
    left out), [AsyncResetSynchronizer] synchronizes a reset and a
    [DDROutput] is a peripheral bound to the domain that clocks it.
    [with_reset] is the framework's default for the argument of that name
    of [create_clkout], which lines 47-48 leave out: when it is set, the PLL
    itself synchronizes the reset of each output it creates to its lock. *)
Fixpoint CRG_manager_ops (with_reset : bool) (clkin : string)
    (p : list CRG.stmt) : list ClockDomainManager.op :=
  match p with
  | [] => []
  | CRG.PllDo (CRG.register_clkin pad f) :: p' =>
      ClockDomainManager.RegisterSource pad f
      :: CRG_manager_ops with_reset pad p'
  | CRG.PllDo (CRG.create_clkout cd f ph) :: p' =>
      ClockDomainManager.Derive cd clkin f (default 0 ph)
      :: (if with_reset
          then [ClockDomainManager.SynchronizeReset cd (CRG.Inv CRG.PllLocked)]
          else [])
      ++ CRG_manager_ops with_reset clkin p'
  | CRG.AddSpecial (CRG.AsyncResetSynchronizer cd guard) :: p' =>
      ClockDomainManager.SynchronizeReset cd guard
      :: CRG_manager_ops with_reset clkin p'
  | CRG.AddSpecial (CRG.DDROutput _ _ pad clk) :: p' =>
      ClockDomainManager.Bind pad clk :: CRG_manager_ops with_reset clkin p'
  | _ :: p' => CRG_manager_ops with_reset clkin p'
  end.

(** ** Process-wide state

    [SoCCore.mem_map] is an attribute of the class [SoCCore]: one table for
    the whole process, shared by every SoC object.  [self.mem_map] on an
    instance reads that same attribute. *)

Record globals := Globals { SoCCore_mem_map : gmap string Z }.

(** State-and-exception passing for code that touches [globals]. *)
Definition M (A : Type) : Type := globals → globals * (Py.exn + A).

#[global] Instance M_ret : MRet M := λ A a g, (g, inr a).
#[global] Instance M_bind : MBind M := λ A B f m g,
  match m g with
  | (g', inl x) => (g', inl x)
  | (g', inr a) => f a g'
  end.

Definition set_mem_map (mm : gmap string Z) : M unit :=
  λ _, (Globals mm, inr tt).
Definition get_mem_map : M (gmap string Z) :=
  λ g, (g, inr (SoCCore_mem_map g)).
Definition lift {A} (r : Py.exn + A) : M A := λ g, (g, r).

(** ** Address space (specification, section 4.1) *)

Module AddressSpace.

Record Region := mkRegion { name : string; base : Z; size : Z }.

(** Some address lies in both [[base, base+size)] intervals. *)
Definition intersects (r1 r2 : Region) : Prop :=
  ∃ a, (base r1 ≤ a < base r1 + size r1) ∧ (base r2 ≤ a < base r2 + size r2).

Definition intersectsb (r1 r2 : Region) : bool :=
  Z.max (base r1) (base r2) <? Z.min (base r1 + size r1) (base r2 + size r2).

(** Modelled from the spec: [allocate(name, base, size)] of the
    AddressSpaceAllocator, which [base.py] does not contain (the
    framework behind [SoCCore] registers the regions).  It fails with
    RegionOverlapError if the new interval intersects a registered one,
    with RegionRedefinedError if the name is taken, and appends the
    region otherwise. *)
Definition allocate (st : list Region) (n : string) (b sz : Z)
  : Py.exn + list Region :=
  let r := mkRegion n b sz in
  if existsb (intersectsb r) st then inl (Py.RegionOverlapError n)
  else if existsb (λ r', String.eqb (name r') n) st
       then inl (Py.RegionRedefinedError n)
  else inr (st ++ [r]).

(** Allocation of a sequence of regions, stopping at the first error. *)
Fixpoint allocate_all (st : list Region) (rs : list Region)
  : Py.exn + list Region :=
  match rs with
  | [] => inr st
  | r :: rs' =>
      match allocate st (name r) (base r) (size r) with
      | inl x => inl x
      | inr st' => allocate_all st' rs'
      end
  end.

(** Modelled from the spec: [clamp(name, requested_size, max_size)]
    returns min(requested_size, max_size); in the repository the
    reconciliation of [size] with [max_sdram_size] happens inside the
    framework's [add_sdram]. *)
Definition clamp (n : string) (requested_size max_size : Z) : Z :=
  Py.min requested_size max_size.

(** The allocator states that can arise: only additions, from nothing. *)
Inductive reachable : list Region → Prop :=
| reachable_nil : reachable []
| reachable_allocate st n b sz st' :
    reachable st → allocate st n b sz = inr st' → reachable st'.

Fixpoint pairwise_disjoint (rs : list Region) : Prop :=
  match rs with
  | [] => True
  | r :: rs' => Forall (λ r', ¬ intersects r r') rs' ∧ pairwise_disjoint rs'
  end.

End AddressSpace.

(** ** The memory map written by [BaseSoC.__init__] (lines 56-62) *)

Definition BaseSoC_mem_map : gmap string Z :=
  <["rom"      := 0x00000000]>
  (<["sram"     := 0x10000000]>
  (<["spiflash" := 0x20000000]>
  (<["main_ram" := 0x40000000]>
  (<["csr"      := 0x82000000]> ∅)))).

(** ** The SoC object built by [BaseSoC.__init__] (lines 54-96) *)

(** Keyword arguments of [SoCCore.__init__] (lines 68-75). *)
Record SoCCore_args := {
  cpu_type            : string;
  cpu_variant         : string;
  clk_freq            : Z;
  ident               : string;
  max_sdram_size      : Z;
  ident_version       : bool;
  integrated_rom_size : Z
}.

(** Arguments of [add_sdram] (lines 80-88); [module] is the SDRAM chip with
    the clock frequency and rate it is constructed for. *)
Record sdram_args := {
  sdram_name              : string;
  sdram_phy               : string;
  sdram_module            : string * Z * string;
  sdram_origin            : Z;
  sdram_size              : Z;
  l2_cache_size           : Z;
  l2_cache_min_data_width : Z;
  l2_cache_reverse        : bool
}.

Record soc := mkSoC {
  revision          : string;
  core              : SoCCore_args;
  attrs             : list string;        (* submodule attributes set on self *)
  platform_requests : list string;
  crg               : option CRG.t;
  sdram             : option sdram_args;
  csrs              : list string;
  ethernet          : option string;      (* phy handed to add_ethernet *)
  spi_flash         : option (string * Z);(* mode, dummy_cycles *)
  constants         : gmap string Z
}.

Definition SoCCore_init (rev : string) (a : SoCCore_args) : soc :=
  mkSoC rev a [] [] None None [] None None ∅.

Definition add_submodule (n : string) (s : soc) : soc :=
  mkSoC (revision s) (core s) (attrs s ++ [n]) (platform_requests s) (crg s)
        (sdram s) (csrs s) (ethernet s) (spi_flash s) (constants s).
Definition platform_request (n : string) (s : soc) : soc :=
  mkSoC (revision s) (core s) (attrs s) (platform_requests s ++ [n]) (crg s)
        (sdram s) (csrs s) (ethernet s) (spi_flash s) (constants s).
Definition set_crg (c : CRG.t) (s : soc) : soc :=
  mkSoC (revision s) (core s) (attrs s) (platform_requests s) (Some c)
        (sdram s) (csrs s) (ethernet s) (spi_flash s) (constants s).
Definition add_sdram (a : sdram_args) (s : soc) : soc :=
  mkSoC (revision s) (core s) (attrs s) (platform_requests s) (crg s)
        (Some a) (csrs s) (ethernet s) (spi_flash s) (constants s).
Definition add_csr (n : string) (s : soc) : soc :=
  mkSoC (revision s) (core s) (attrs s) (platform_requests s) (crg s)
        (sdram s) (csrs s ++ [n]) (ethernet s) (spi_flash s) (constants s).
Definition add_ethernet (phy : string) (s : soc) : soc :=
  mkSoC (revision s) (core s) (attrs s) (platform_requests s) (crg s)
        (sdram s) (csrs s) (Some phy) (spi_flash s) (constants s).
(** [add_spi_flash] leaves the flash core on the object as the submodule
    [spiflash]; that attribute is what [configure_boot] tests for. *)
Definition add_spi_flash (mode : string) (dummy_cycles : Z) (s : soc) : soc :=
  mkSoC (revision s) (core s) (attrs s ++ ["spiflash"]) (platform_requests s)
        (crg s) (sdram s) (csrs s) (ethernet s) (Some (mode, dummy_cycles))
        (constants s).
(** [add_constant] records the constant under its name.  The framework's
    method refuses a name that is declared already; what happens on such
    an object is not modelled. *)
Definition add_constant (n : string) (v : Z) (s : soc) : soc :=
  mkSoC (revision s) (core s) (attrs s) (platform_requests s) (crg s)
        (sdram s) (csrs s) (ethernet s) (spi_flash s) (<[n := v]> (constants s)).

Definition hasattr (s : soc) (n : string) : bool := bool_decide (n ∈ attrs s).

(** [int(66e6)] (line 65). *)
Definition sys_clk_freq : Z := 66000000.

(** What the framework does behind the calls of [BaseSoC.__init__], as far
    as the file can see it: each group of calls may update the dictionary
    behind [SoCCore.mem_map] in place, and may raise.  [fw_setup] stands
    for lines 64-79 ([Platform(revision)], [SoCCore.__init__], [_CRG],
    [GENSDRPHY]), [fw_finish] for lines 80-96. *)
Record framework := {
  fw_setup  : string → gmap string Z → gmap string Z * option Py.exn;
  fw_finish : gmap string Z → gmap string Z * option Py.exn
}.

Definition framework_step
    (f : gmap string Z → gmap string Z * option Py.exn) : M unit :=
  λ g, (Globals (f (SoCCore_mem_map g)).1,
        match (f (SoCCore_mem_map g)).2 with
        | Some x => inl x
        | None => inr tt
        end).

(** A framework that leaves the table alone and never raises. *)
Definition framework_quiet : framework :=
  {| fw_setup := λ _ mm, (mm, None); fw_finish := λ mm, (mm, None) |}.

(** [BaseSoC.__init__] over a framework.  The calls are recorded on the
    object; [self.mem_map] on line 83 reads the table as the framework has
    left it by then. *)
Definition BaseSoC_init_with (fw : framework) (rev : string) : M soc :=
  _ ← set_mem_map BaseSoC_mem_map;
  _ ← framework_step (fw_setup fw rev);
  let s := SoCCore_init rev
    {| cpu_type            := "vexriscv";
       cpu_variant         := "linux";
       clk_freq            := sys_clk_freq * 3;
       ident               := "LiteX RISC-V SoC on 5A-75B";
       max_sdram_size      := 0x400000;
       ident_version       := true;
       integrated_rom_size := 0x8000 |} in
  let s := add_submodule "crg" (set_crg (CRG.init sys_clk_freq) s) in
  let s := add_submodule "sdrphy" (platform_request "sdram" s) in
  mm ← get_mem_map;
  main_ram ← lift (Py.getitem mm "main_ram");
  let s := add_sdram
    {| sdram_name              := "sdram";
       sdram_phy               := "sdrphy";
       sdram_module            := ("M12L16161A", sys_clk_freq, "1:1");
       sdram_origin            := main_ram;
       sdram_size              := 4 * mB;
       l2_cache_size           := 0x8000;
       l2_cache_min_data_width := 128;
       l2_cache_reverse        := true |} s in
  let s := add_submodule "ethphy"
             (platform_request "eth" (platform_request "eth_clocks" s)) in
  let s := add_csr "ethphy" s in
  let s := add_ethernet "ethphy" s in
  _ ← framework_step (fw_finish fw);
  mret (add_spi_flash "1x" 8 s).

(** [BaseSoC.__init__] when the framework leaves [SoCCore.mem_map] as line
    56 set it and accepts every call. *)
Definition BaseSoC_init (rev : string) : M soc :=
  BaseSoC_init_with framework_quiet rev.

(** [BaseSoC.configure_boot] (lines 112-114). *)
Definition configure_boot (s : soc) : M soc :=
  if hasattr s "spiflash" then
    mm ← get_mem_map;
    spiflash ← lift (Py.getitem mm "spiflash");
    mret (add_constant "FLASH_BOOT_ADDRESS" (spiflash + 1 * mB) s)
  else mret s.

(** The regions of the composed address map.  Bases come from the memory
    map; the ROM size and the SDRAM window come from the arguments above;
    the sizes the file does not fix are parameters. *)
Definition BaseSoC_regions (mm : gmap string Z) (s : soc)
    (sram_size spiflash_size csr_size : Z) : option (list AddressSpace.Region) :=
  rom ← mm !! "rom";
  sram ← mm !! "sram";
  spiflash ← mm !! "spiflash";
  csr ← mm !! "csr";
  sd ← sdram s;
  Some [ AddressSpace.mkRegion "rom" rom (integrated_rom_size (core s));
         AddressSpace.mkRegion "sram" sram sram_size;
         AddressSpace.mkRegion "spiflash" spiflash spiflash_size;
         AddressSpace.mkRegion "main_ram" (sdram_origin sd)
           (AddressSpace.clamp "main_ram" (sdram_size sd)
                               (max_sdram_size (core s)));
         AddressSpace.mkRegion "csr" csr csr_size ].

(** ** Build and load driver: [main] (lines 118-141) *)

(** The command-line flags [main] reads. *)
Record args := { build : bool; load : bool; cable : string }.

(** The outside world: what the toolchain would answer if it were run (exit
    status and diagnostic text), the two names [main] takes from the
    builder and the SoC, and the exit status of commands run by the
    shell. *)
Record env := {
  synthesis    : Z * string;
  gateware_dir : string;
  build_name   : string;
  shell        : string → Z
}.

(** [os.system(cmd)] returns the wait status of the shell: the exit status
    of a command that ran to its end, shifted left by eight bits. *)
Definition os_system (e : env) (cmd : string) : Z := Z.shiftl (shell e cmd) 8.

Inductive event :=
| Prepare (csr_json : string) (bios_options : list string)
| Synthesis
| Print (s : string)
| System (cmd : string) (status : Z).   (* status: what the call returned *)

Inductive outcome :=
| Returned
| Raised (x : Py.exn).

(** [subprocess.check_call(cmd, shell=True)]: runs the command and raises
    when its exit status is not zero. *)
Definition check_call (e : env) (cmd : string) : list event * (Py.exn + unit) :=
  ([System cmd (shell e cmd)],
   if shell e cmd =? 0 then inr tt
   else inl (Py.CalledProcessError (shell e cmd) cmd)).

(** [BaseSoC.generate_dts] (lines 99-103). *)
Definition generate_dts (e : env) (board_name : string)
  : list event * (Py.exn + unit) :=
  let json := Py.path_join (Py.path_join "build" board_name) "csr.json" in
  let dts := Py.path_join (Py.path_join "build" board_name)
                          (board_name +:+ ".dts") in
  check_call e ("./json2dts.py " +:+ json +:+ " > " +:+ dts).

(** [BaseSoC.compile_dts] (lines 106-110). *)
Definition compile_dts (e : env) (board_name : string)
  : list event * (Py.exn + unit) :=
  let dts := Py.path_join (Py.path_join "build" board_name)
                          (board_name +:+ ".dts") in
  let dtb := Py.path_join "buildroot" "rv32.dtb" in
  check_call e ("dtc -O dtb -o " +:+ dtb +:+ " " +:+ dts).

(** Modelled from the spec: [build(descriptor, output_dir, build_requested)]
    of the BuildOrchestrator, standing for the framework's [Builder.build]
    that [base.py] calls.  [Prepare] carries the arguments the [Builder] is
    constructed with (lines 130-133); the toolchain flags of
    [trellis_argdict(args)] are handed through and not recorded.  Build
    inputs are always prepared; the synthesis collaborator is invoked only
    when a build is requested, and a non-zero exit is raised to the caller
    with the collaborator's diagnostic. *)
Definition Builder_build (e : env) (csr_json : string)
    (bios_options : list string) (run : bool) : list event * (Py.exn + unit) :=
  if run then
    ([Prepare csr_json bios_options; Synthesis],
     if (synthesis e).1 =? 0 then inr tt
     else inl (Py.ExternalToolFailure (synthesis e).1 (synthesis e).2))
  else ([Prepare csr_json bios_options], inr tt).

(** Lines 130-134. *)
Definition build_phase (a : args) (e : env) : list event * (Py.exn + unit) :=
  Builder_build e
    (Py.path_join (Py.path_join "build" "colorlight_5a_75b") "csr.json")
    ["TERM_MINI"] (build a).

(** Lines 138-141. *)
Definition load_command (a : args) (e : env) : string :=
  "openFPGALoader -c " +:+ cable a +:+ " "
  +:+ Py.path_join (gateware_dir e) (build_name e +:+ ".bit").

Definition load_phase (a : args) (e : env) : list event :=
  if load a then
    [Print (cable a); System (load_command a e) (os_system e (load_command a e))]
  else [].

Record run := Run { trace : list event; result : outcome; final : globals }.

Definition main (a : args) (e : env) (g : globals) : run :=
  match BaseSoC_init "7.0" g with
  | (g', inl x) => Run [] (Raised x) g'
  | (g', inr _) =>
      match build_phase a e with
      | (evs, inl x) => Run evs (Raised x) g'
      | (evs, inr _) => Run (evs ++ load_phase a e) Returned g'
      end
  end.

(** *** What the process shows for a run of [main] *)

Definition exit_status (o : outcome) : Z :=
  match o with
  | Returned => 0
  | Raised _ => 1
  end.

Definition exn_name (x : Py.exn) : string :=
  match x with
  | Py.KeyError _ => "KeyError"
  | Py.RegionOverlapError _ => "RegionOverlapError"
  | Py.RegionRedefinedError _ => "RegionRedefinedError"
  | Py.ClockSourceCycleError _ => "ClockSourceCycleError"
  | Py.UnsynchronizedDomainError _ => "UnsynchronizedDomainError"
  | Py.InvalidStateError => "InvalidStateError"
  | Py.ExternalToolFailure _ _ => "ExternalToolFailure"
  | Py.CalledProcessError _ _ => "subprocess.CalledProcessError"
  end.

Definition exn_str (x : Py.exn) : string :=
  match x with
  | Py.KeyError k => "'" +:+ k +:+ "'"
  | Py.RegionOverlapError n => n
  | Py.RegionRedefinedError n => n
  | Py.ClockSourceCycleError d => d
  | Py.UnsynchronizedDomainError d => d
  | Py.InvalidStateError => ""
  | Py.ExternalToolFailure _ d => d
  | Py.CalledProcessError rc cmd =>
      "Command '" +:+ cmd +:+ "' returned non-zero exit status "
      +:+ pretty rc +:+ "."
  end.

(** The last line of the report of an uncaught exception. *)
Definition format_exception_only (x : Py.exn) : string :=
  match exn_str x with
  | EmptyString => exn_name x
  | m => exn_name x +:+ ": " +:+ m
  end.

(** Lines written to the error stream when [main] ends (stack frames left
    out). *)
Definition stderr (o : outcome) : list string :=
  match o with
  | Returned => []
  | Raised x => ["Traceback (most recent call last):"; format_exception_only x]
  end.

(** *** The orchestration states of the specification, read off a run *)

Inductive state :=
| Unbuilt
| Built
| BuildFailed (x : Py.exn)
| Loaded
| LoadFailed (status : Z).

Definition state_after_build (a : args) (e : env) : state :=
  match build_phase a e with
  | (_, inl x) => BuildFailed x
  | (_, inr _) => if build a then Built else Unbuilt
  end.

Definition is_system (ev : event) : bool :=
  match ev with System _ _ => true | _ => false end.


(** Was the device programmer started during the run? *)
Definition programmed (r : run) : bool := existsb is_system (trace r).

Fixpoint state_after_events (st : state) (evs : list event) : state :=
  match evs with
  | [] => st
  | System _ status :: evs' =>
      state_after_events (if status =? 0 then Loaded else LoadFailed status) evs'
  | _ :: evs' => state_after_events st evs'
  end.

Definition final_state (a : args) (e : env) (g : globals) : state :=
  state_after_events (state_after_build a e) (trace (main a e g)).

(** A world in which every tool succeeds, with the names the framework
    gives the gateware directory and the build. *)
Definition env_ok : env :=
  {| synthesis    := (0, "");
     gateware_dir := "build/colorlight_5a_75b/gateware";
     build_name   := "colorlight_5a_75b";
     shell        := λ _, 0 |}.

Definition globals0 : globals := Globals ∅.

(** The same world, except that the device programmer exits with status 1. *)
Definition env_load_fails : env :=
  {| synthesis    := (0, "");
     gateware_dir := "build/colorlight_5a_75b/gateware";
     build_name   := "colorlight_5a_75b";
     shell        := λ _, 1 |}.




(** The region table of the composed SoC, spelled out. *)
Definition composed_regions (sram_size spiflash_size csr_size : Z)
  : list AddressSpace.Region :=
  [ AddressSpace.mkRegion "rom"      0x00000000 0x8000;
    AddressSpace.mkRegion "sram"     0x10000000 sram_size;
    AddressSpace.mkRegion "spiflash" 0x20000000 spiflash_size;
    AddressSpace.mkRegion "main_ram" 0x40000000 0x400000;
    AddressSpace.mkRegion "csr"      0x82000000 csr_size ].

(** ** Notions used to state further properties *)

(** A board name that is not empty and neither begins nor ends with a
    slash: one path component or a relative path. *)
Definition starts_with_slash (s : string) : bool :=
  match s with
  | String c _ => Ascii.eqb c "/"%char
  | EmptyString => false
  end.


(** The address lies in the region's interval. *)
Definition contains (r : AddressSpace.Region) (a : Z) : Prop :=
  AddressSpace.base r ≤ a < AddressSpace.base r + AddressSpace.size r.

(** * Properties *)

(** ** Sample evaluations *)

Example crg_pll :
  CRG.pll (CRG.init 66000000)
  = [CRG.register_clkin "clk25" 25000000;
     CRG.create_clkout "sys" 66000000 None;
     CRG.create_clkout "sys_ps" 66000000 (Some 180)].
Proof. reflexivity. Qed.

Example mem_map_main_ram : BaseSoC_mem_map !! "main_ram" = Some 0x40000000.
Proof. vm_compute. reflexivity. Qed.

Example path_join_ex :
  Py.path_join (Py.path_join "build" "colorlight_5a_75b") "csr.json"
  = "build/colorlight_5a_75b/csr.json".
Proof. reflexivity. Qed.

Example main_build_load :
  trace (main {| build := true; load := true; cable := "dirtyJtag" |} env_ok globals0)
  = [ Prepare "build/colorlight_5a_75b/csr.json" ["TERM_MINI"];
      Synthesis;
      Print "dirtyJtag";
      System "openFPGALoader -c dirtyJtag build/colorlight_5a_75b/gateware/colorlight_5a_75b.bit" 0 ].
Proof. vm_compute. reflexivity. Qed.

(** ** Composition does not depend on the table it finds *)

Lemma BaseSoC_init_indep (rev : string) (g g' : globals) :
  BaseSoC_init rev g = BaseSoC_init rev g'.
Proof. reflexivity. Qed.

Lemma BaseSoC_init_globals (rev : string) (g : globals) :
  (BaseSoC_init rev g).1 = Globals BaseSoC_mem_map.
Proof. rewrite (BaseSoC_init_indep rev g globals0). vm_compute. reflexivity. Qed.

Lemma BaseSoC_init_succeeds (rev : string) (g : globals) :
  ∃ s, BaseSoC_init rev g = (Globals BaseSoC_mem_map, inr s).
Proof.
  rewrite (BaseSoC_init_indep rev g globals0).
  eexists. vm_compute. reflexivity.
Qed.

(** ** Clock domains *)

Lemma reset_guard_follows_lock (locked : bool) :
  CRG.reset_asserted locked CRG.reset_guard = negb locked.
Proof. destruct locked; reflexivity. Qed.

Section ClockDomainManagerFacts.
Import ClockDomainManager.

Lemma assoc_cons_eq {A} (n : string) (v : A) (l : list (string * A)) :
  assoc n ((n, v) :: l) = Some v.
Proof. cbn. rewrite String.eqb_refl. reflexivity. Qed.

(** [derive] stores the domain with the source, frequency and phase given. *)
Lemma derive_stores st n src f p st' :
  derive st n src f p = inr st' → domain_of st' n = Some (mkDomain src f p).
Proof.
  unfold derive. destruct (registered st src); [|intros H; discriminate H].
  intros [= <-]. apply assoc_cons_eq.
Qed.

Lemma apply_op_keeps_domain st o st' n :
  apply_op st o = inr st' → derives n o = false →
  domain_of st' n = domain_of st n.
Proof.
  destruct o as [m f|m src f p|d guard|per d]; cbn.
  - intros [= <-] _. reflexivity.
  - unfold derive. destruct (registered st src); [|intros H; discriminate H].
    intros [= <-] Hm. unfold domain_of. cbn. rewrite Hm. reflexivity.
  - intros [= <-] _. reflexivity.
  - unfold bind. destruct (bind_check st d); [intros H; discriminate H|].
    intros [= <-] _. reflexivity.
Qed.

(** What is stored for a domain stays as it is until that domain is
    derived anew. *)
Lemma run_keeps_domain ops : ∀ st st' n,
  run st ops = inr st' → existsb (derives n) ops = false →
  domain_of st' n = domain_of st n.
Proof.
  induction ops as [|o ops IH]; cbn; intros st st' n Hrun Hn.
  - injection Hrun as <-. reflexivity.
  - apply orb_false_iff in Hn as [Ho Hops].
    destruct (apply_op st o) as [x|st1] eqn:E; [discriminate Hrun|].
    rewrite (IH st1 st' n Hrun Hops). apply (apply_op_keeps_domain _ _ _ _ E Ho).
Qed.

Lemma bind_check_unsynchronized st d :
  is_synchronized st d = false →
  bind_check st d = inl (Py.UnsynchronizedDomainError d).
Proof. unfold bind_check. intros ->. reflexivity. Qed.

Lemma bind_check_synchronized st d guard :
  bind_check (synchronize_reset st d guard) d = inr tt.
Proof.
  unfold bind_check, is_synchronized, has_key. cbn.
  rewrite String.eqb_refl. reflexivity.
Qed.

Lemma apply_op_bound_ok st o st' :
  bound_ok st → apply_op st o = inr st' → bound_ok st'.
Proof.
  intros Hok. destruct o as [m f|m src f p|d guard|per d]; cbn.
  - intros [= <-]. exact Hok.
  - unfold derive. destruct (registered st src); [|intros H; discriminate H].
    intros [= <-]. exact Hok.
  - intros [= <-] per d' Hin. unfold is_synchronized, has_key. cbn.
    apply orb_true_iff. right. apply (Hok per d' Hin).
  - unfold bind, bind_check.
    destruct (is_synchronized st d) eqn:E; [|intros H; discriminate H].
    intros [= <-] per' d' Hin. cbn in Hin.
    apply elem_of_cons in Hin as [[= -> ->]|Hin]; [exact E|].
    apply (Hok per' d' Hin).
Qed.

Lemma run_bound_ok ops : ∀ st st',
  bound_ok st → run st ops = inr st' → bound_ok st'.
Proof.
  induction ops as [|o ops IH]; cbn; intros st st' Hok Hrun.
  - injection Hrun as <-. exact Hok.
  - destruct (apply_op st o) as [x|st1] eqn:E; [discriminate Hrun|].
    apply (IH st1 st'); [|exact Hrun]. apply (apply_op_bound_ok _ _ _ Hok E).
Qed.

End ClockDomainManagerFacts.

(** Were the PLL not to synchronize the resets of its outputs, the clock
    generator would be refused at its DDR output. *)
Lemma crg_without_pll_resets_refused :
  ClockDomainManager.run ClockDomainManager.empty
    (CRG_manager_ops false "" (CRG.program sys_clk_freq))
  = inl (Py.UnsynchronizedDomainError "sys_ps").
Proof. vm_compute. reflexivity. Qed.

(** C8: the clock manager stores the phase it is given: after [derive] the
    domain carries exactly the source, frequency and phase of the call,
    whatever the phase, and nothing but a new [derive] of the same domain
    changes what is stored.  For the clock generator of the file this
    makes [sys_ps] a domain derived from the same 25 MHz reference as
    [sys], at the same frequency, with phase 180, the value line 48
    passes. *)
Theorem C8_sys_ps_phase_verbatim :
  (∀ st n src f p st',
     ClockDomainManager.derive st n src f p = inr st' →
     ClockDomainManager.domain_of st' n
     = Some (ClockDomainManager.mkDomain src f p))
  ∧ (∀ st ops st' n d,
       ClockDomainManager.run st ops = inr st' →
       existsb (ClockDomainManager.derives n) ops = false →
       ClockDomainManager.domain_of st n = Some d →
       ClockDomainManager.domain_of st' n = Some d)
  ∧ CRG.pll (CRG.init sys_clk_freq)
    = [ CRG.register_clkin "clk25" 25000000;
        CRG.create_clkout "sys" sys_clk_freq None;
        CRG.create_clkout "sys_ps" sys_clk_freq (Some 180) ]
  ∧ (∃ st,
       ClockDomainManager.run ClockDomainManager.empty
         (CRG_manager_ops true "" (CRG.program sys_clk_freq)) = inr st
       ∧ ClockDomainManager.sources st = [("clk25", 25000000)]
       ∧ ClockDomainManager.domain_of st "sys"
         = Some (ClockDomainManager.mkDomain "clk25" sys_clk_freq 0)
       ∧ ClockDomainManager.domain_of st "sys_ps"
         = Some (ClockDomainManager.mkDomain "clk25" sys_clk_freq 180)).
Proof.
  split; [exact derive_stores|]. split.
  - intros st ops st' n d Hrun Hn Hd.
    rewrite (run_keeps_domain ops st st' n Hrun Hn). exact Hd.
  - split; [reflexivity|].
    eexists. split; [vm_compute; reflexivity|].
    split; [reflexivity|]. split; reflexivity.
Qed.

Lemma C8_sys_ps_phase_verbatim_witness :
  ClockDomainManager.domain_of
    (ClockDomainManager.mk [("clk25", 25000000)]
       [("sys_ps", ClockDomainManager.mkDomain "clk25" 66000000 180)] [] [])
    "sys_ps"
  = Some (ClockDomainManager.mkDomain "clk25" 66000000 180).
Proof.
  apply (proj1 C8_sys_ps_phase_verbatim
           (ClockDomainManager.register_source ClockDomainManager.empty
              "clk25" 25000000)
           "sys_ps" "clk25" 66000000 180).
  reflexivity.
Defined.

(** C10: the base clock frequency declared to [SoCCore] is 198 MHz, three
    times the 66 MHz at which the clock generator produces the [sys] domain
    from the 25 MHz oscillator; the two frequencies differ. *)
Theorem C10_declared_clk_freq_is_triple (rev : string) (g : globals) :
  ∃ s c f_sys,
    (BaseSoC_init rev g).2 = inr s
    ∧ crg s = Some c
    ∧ CRG.clkins c = [("clk25", 25000000)]
    ∧ CRG.clkout_of c "sys" = Some (f_sys, None)
    ∧ f_sys = 66000000
    ∧ clk_freq (core s) = 198000000
    ∧ clk_freq (core s) = 3 * f_sys
    ∧ clk_freq (core s) ≠ f_sys.
Proof.
  rewrite (BaseSoC_init_indep rev g globals0).
  eexists _, _, _.
  split; [vm_compute; reflexivity|].
  split; [reflexivity|].
  repeat split; try reflexivity.
  cbn. intros H. discriminate H.
Qed.

(** C9: a domain whose reset has not been synchronized is refused:
    [bind_check] and every binding of a peripheral to it fail with
    UnsynchronizedDomainError, and right after [synchronize_reset] the check
    passes; so whatever operations have run, every bound peripheral is on
    a synchronized domain.  For [sys_ps] derived from [sys] with phase 180,
    binding fails before the synchronization and succeeds after it.  In the
    clock generator of the file, with the PLL synchronizing the reset of
    each output it creates, the DDR output, registered last, is bound to a
    synchronized [sys_ps]. *)
Theorem C9_unsynchronized_domain_refused :
  (∀ st d,
     ClockDomainManager.is_synchronized st d = false →
     ClockDomainManager.bind_check st d = inl (Py.UnsynchronizedDomainError d)
     ∧ ∀ per, ClockDomainManager.bind st per d
              = inl (Py.UnsynchronizedDomainError d))
  ∧ (∀ st d guard,
       ClockDomainManager.bind_check
         (ClockDomainManager.synchronize_reset st d guard) d = inr tt)
  ∧ (∀ ops st,
       ClockDomainManager.run ClockDomainManager.empty ops = inr st →
       ∀ per d, (per, d) ∈ ClockDomainManager.bound st →
         ClockDomainManager.is_synchronized st d = true)
  ∧ ClockDomainManager.run ClockDomainManager.empty
      [ ClockDomainManager.RegisterSource "clk25" 25000000;
        ClockDomainManager.Derive "sys" "clk25" 66000000 0;
        ClockDomainManager.Derive "sys_ps" "sys" 66000000 180;
        ClockDomainManager.Bind "sdram_clock" "sys_ps" ]
    = inl (Py.UnsynchronizedDomainError "sys_ps")
  ∧ (∃ st,
       ClockDomainManager.run ClockDomainManager.empty
         [ ClockDomainManager.RegisterSource "clk25" 25000000;
           ClockDomainManager.Derive "sys" "clk25" 66000000 0;
           ClockDomainManager.Derive "sys_ps" "sys" 66000000 180;
           ClockDomainManager.SynchronizeReset "sys_ps" CRG.reset_guard;
           ClockDomainManager.Bind "sdram_clock" "sys_ps" ] = inr st
       ∧ ClockDomainManager.bound st = [("sdram_clock", "sys_ps")])
  ∧ (∃ st,
       ClockDomainManager.run ClockDomainManager.empty
         (CRG_manager_ops true "" (CRG.program sys_clk_freq)) = inr st
       ∧ ClockDomainManager.bound st = [("sdram_clock", "sys_ps")]
       ∧ ClockDomainManager.is_synchronized st "sys" = true
       ∧ ClockDomainManager.is_synchronized st "sys_ps" = true).
Proof.
  split.
  { intros st d Hd. split; [apply bind_check_unsynchronized, Hd|].
    intros per. unfold ClockDomainManager.bind.
    rewrite (bind_check_unsynchronized st d Hd). reflexivity. }
  split; [exact bind_check_synchronized|].
  split.
  { intros ops st Hrun.
    apply (run_bound_ok ops ClockDomainManager.empty st); [|exact Hrun].
    intros per d Hin. cbn in Hin. apply elem_of_nil in Hin. destruct Hin. }
  split; [vm_compute; reflexivity|].
  split.
  - eexists. split; [vm_compute; reflexivity | reflexivity].
  - eexists. split; [vm_compute; reflexivity|].
    split; [reflexivity|]. split; reflexivity.
Qed.

Lemma C9_unsynchronized_domain_refused_witness :
  ClockDomainManager.bind_check
    (ClockDomainManager.register_source ClockDomainManager.empty
       "clk25" 25000000) "sys_ps"
  = inl (Py.UnsynchronizedDomainError "sys_ps").
Proof.
  apply (proj1 C9_unsynchronized_domain_refused). reflexivity.
Defined.

(** ** Boot configuration *)

Lemma one_mB : 1 * mB = 0x100000.
Proof. reflexivity. Qed.

(** [BaseSoC.__init__] itself publishes no constant; FLASH_BOOT_ADDRESS
    appears only once [configure_boot] is called on the object. *)
Lemma BaseSoC_init_publishes_nothing (rev : string) (g : globals) :
  ∃ s, (BaseSoC_init rev g).2 = inr s
       ∧ hasattr s "spiflash" = true
       ∧ constants s !! "FLASH_BOOT_ADDRESS" = None.
Proof.
  rewrite (BaseSoC_init_indep rev g globals0).
  eexists. split; [vm_compute; reflexivity|].
  split; vm_compute; reflexivity.
Qed.

(** C3: whenever the flash is present, [configure_boot] publishes
    FLASH_BOOT_ADDRESS as the base of the [spiflash] region plus 1 MiB; on
    the composed SoC that is 0x20000000 + 0x100000 = 0x20100000. *)
Theorem C3_flash_boot_address :
  (∀ (s : soc) (g : globals) (spiflash_base : Z),
     hasattr s "spiflash" = true →
     SoCCore_mem_map g !! "spiflash" = Some spiflash_base →
     ∃ s', configure_boot s g = (g, inr s')
           ∧ constants s' !! "FLASH_BOOT_ADDRESS"
             = Some (spiflash_base + 0x100000))
  ∧ (∀ (rev : string) (g : globals),
     ∃ g' s',
       mbind configure_boot (BaseSoC_init rev) g = (g', inr s')
       ∧ hasattr s' "spiflash" = true
       ∧ SoCCore_mem_map g' !! "spiflash" = Some 0x20000000
       ∧ constants s' !! "FLASH_BOOT_ADDRESS" = Some 0x20100000
       ∧ 0x20100000 = 0x20000000 + 0x100000).
Proof.
  split.
  - intros s g b Hattr Hmm.
    unfold configure_boot. rewrite Hattr.
    unfold mbind, M_bind, get_mem_map, lift, Py.getitem, mret, M_ret.
    rewrite Hmm. eexists. split; [reflexivity|].
    unfold add_constant. cbn [constants].
    rewrite lookup_insert_eq, one_mB. reflexivity.
  - intros rev g.
    assert (E : mbind configure_boot (BaseSoC_init rev) g
                = mbind configure_boot (BaseSoC_init rev) globals0) by reflexivity.
    rewrite E. eexists _, _.
    split; [vm_compute; reflexivity|].
    split; [vm_compute; reflexivity|].
    split; [vm_compute; reflexivity|].
    split; [vm_compute; reflexivity|reflexivity].
Qed.

Lemma C3_flash_boot_address_witness :
  ∃ s', configure_boot (add_spi_flash "1x" 8 (SoCCore_init "7.0"
          {| cpu_type := "vexriscv"; cpu_variant := "linux";
             clk_freq := 198000000; ident := "";
             max_sdram_size := 0x400000; ident_version := true;
             integrated_rom_size := 0x8000 |}))
        (Globals BaseSoC_mem_map)
        = (Globals BaseSoC_mem_map, inr s')
     ∧ constants s' !! "FLASH_BOOT_ADDRESS" = Some (0x20000000 + 0x100000).
Proof.
  apply (proj1 C3_flash_boot_address).
  - vm_compute. reflexivity.
  - vm_compute. reflexivity.
Defined.

(** ** Address space *)

Section AddressSpaceFacts.
Import AddressSpace.

Lemma intersects_sym (r1 r2 : Region) : intersects r1 r2 → intersects r2 r1.
Proof. intros (a & H1 & H2). exists a. split; assumption. Qed.

Lemma intersectsb_spec (r1 r2 : Region) :
  intersectsb r1 r2 = true ↔ intersects r1 r2.
Proof.
  unfold intersectsb, intersects. rewrite Z.ltb_lt. split.
  - intros H. exists (Z.max (base r1) (base r2)). lia.
  - intros (a & H1 & H2). lia.
Qed.

Lemma existsb_intersectsb_false (r : Region) (st : list Region) :
  existsb (intersectsb r) st = false ↔ Forall (λ r', ¬ intersects r r') st.
Proof.
  induction st as [|x st IH]; cbn.
  - split; [constructor | reflexivity].
  - rewrite orb_false_iff, IH, Forall_cons.
    rewrite <- intersectsb_spec, not_true_iff_false. reflexivity.
Qed.

Lemma existsb_name_false (n : string) (st : list Region) :
  existsb (λ r', String.eqb (name r') n) st = false
  ↔ Forall (λ r', name r' ≠ n) st.
Proof.
  induction st as [|x st IH]; cbn.
  - split; [constructor | reflexivity].
  - rewrite orb_false_iff, IH, Forall_cons, String.eqb_neq. reflexivity.
Qed.

(** An intersecting request is refused, whatever else holds of it. *)
Lemma allocate_overlap st n b sz r :
  r ∈ st → intersects (mkRegion n b sz) r →
  allocate st n b sz = inl (Py.RegionOverlapError n).
Proof.
  intros Hin Hint. unfold allocate.
  destruct (existsb (intersectsb (mkRegion n b sz)) st) eqn:E; [reflexivity|].
  apply existsb_intersectsb_false in E.
  rewrite Forall_forall in E. destruct (E r Hin Hint).
Qed.

Lemma allocate_inr st n b sz st' :
  allocate st n b sz = inr st' ↔
  st' = st ++ [mkRegion n b sz]
  ∧ Forall (λ r', ¬ intersects (mkRegion n b sz) r') st
  ∧ Forall (λ r', name r' ≠ n) st.
Proof.
  unfold allocate.
  rewrite <- existsb_intersectsb_false, <- existsb_name_false.
  destruct (existsb (intersectsb _) st);
    [|destruct (existsb (λ r', String.eqb (name r') n) st)];
    split; try (intros H; discriminate H);
    try (intros (_ & H1 & H2); discriminate).
  - intros [= <-]. auto.
  - intros (-> & _). reflexivity.
Qed.

Lemma pairwise_disjoint_snoc st r :
  pairwise_disjoint st → Forall (λ r', ¬ intersects r r') st →
  pairwise_disjoint (st ++ [r]).
Proof.
  induction st as [|x st IH]; cbn.
  - intros _ _. split; [constructor | exact I].
  - intros [Hx Hst] Hr. apply Forall_cons in Hr as [Hrx Hr]. split.
    + apply Forall_app. split; [exact Hx|].
      constructor; [|constructor].
      intros H. apply Hrx, intersects_sym, H.
    + apply IH; assumption.
Qed.

Lemma reachable_pairwise_disjoint st : reachable st → pairwise_disjoint st.
Proof.
  induction 1 as [|st n b sz st' _ IH Halloc]; [exact I|].
  apply allocate_inr in Halloc as (-> & Hdis & _).
  apply pairwise_disjoint_snoc; assumption.
Qed.

Lemma reachable_names_unique st : reachable st → NoDup (name <$> st).
Proof.
  induction 1 as [|st n b sz st' _ IH Halloc]; [constructor|].
  apply allocate_inr in Halloc as (-> & _ & Hn).
  rewrite fmap_app. apply NoDup_app. split; [exact IH|]. split.
  - intros x Hx Hx'. cbn in Hx'. apply list_elem_of_singleton in Hx'. subst x.
    apply list_elem_of_fmap in Hx as (r & Hr & Hin).
    rewrite Forall_forall in Hn. apply (Hn r Hin). symmetry. exact Hr.
  - cbn. apply NoDup_singleton.
Qed.

(** Entries at two different positions never intersect. *)
Lemma pairwise_disjoint_lookup rs :
  pairwise_disjoint rs →
  ∀ (i j : nat) r1 r2, i ≠ j → rs !! i = Some r1 → rs !! j = Some r2 →
    ¬ intersects r1 r2.
Proof.
  induction rs as [|x rs IH]; cbn; [intros _ i j r1 r2 _ H; discriminate H|].
  intros [Hx Hrs] i j r1 r2 Hij H1 H2.
  rewrite Forall_forall in Hx.
  destruct i as [|i], j as [|j]; cbn in H1, H2.
  - congruence.
  - injection H1 as <-. apply Hx. eapply list_elem_of_lookup_2, H2.
  - injection H2 as <-. intros H. apply intersects_sym in H. revert H.
    apply Hx. eapply list_elem_of_lookup_2, H1.
  - eapply (IH Hrs i j); [congruence|eassumption..].
Qed.

(** Disjoint regions with distinct names are all accepted, in order. *)
Lemma allocate_all_accepts rs : ∀ st,
  pairwise_disjoint (st ++ rs) → NoDup (name <$> (st ++ rs)) →
  allocate_all st rs = inr (st ++ rs).
Proof.
  induction rs as [|r rs IH]; intros st Hd Hn; cbn.
  - rewrite app_nil_r. reflexivity.
  - assert (Hst : allocate st (name r) (base r) (size r) = inr (st ++ [r])).
    { apply allocate_inr. destruct r as [n b sz]. cbn [name base size].
      split; [reflexivity|]. split.
      - apply Forall_forall. intros r' Hr' Hint.
        apply list_elem_of_lookup_1 in Hr' as [i Hi].
        apply (pairwise_disjoint_lookup _ Hd i (List.length st) r' (mkRegion n b sz)).
        + apply lookup_lt_Some in Hi. lia.
        + rewrite lookup_app_l; [exact Hi|]. apply lookup_lt_Some in Hi. exact Hi.
        + rewrite lookup_app_r by lia. rewrite Nat.sub_diag. reflexivity.
        + apply intersects_sym, Hint.
      - apply Forall_forall. intros r' Hr' Heq.
        rewrite fmap_app, fmap_cons in Hn. cbn [name] in Hn.
        apply NoDup_app in Hn as (_ & Hn & _).
        apply (Hn n).
        + rewrite <- Heq. apply list_elem_of_fmap. exists r'. auto.
        + left. }
    rewrite Hst. rewrite (IH (st ++ [r])).
    + rewrite <- app_assoc. reflexivity.
    + rewrite <- app_assoc. exact Hd.
    + rewrite <- app_assoc. exact Hn.
Qed.

Lemma Py_min_is_min (a b : Z) : Py.min a b = Z.min a b.
Proof. unfold Py.min. destruct (Z.ltb_spec b a); lia. Qed.

End AddressSpaceFacts.

Lemma allocate_all_reachable rs : ∀ st st',
  AddressSpace.reachable st → AddressSpace.allocate_all st rs = inr st' →
  AddressSpace.reachable st'.
Proof.
  induction rs as [|r rs IH]; cbn; intros st st' Hst H.
  - injection H as <-. exact Hst.
  - destruct (AddressSpace.allocate st _ _ _) as [x|st1] eqn:E; [discriminate H|].
    apply (IH st1); [|exact H].
    eapply AddressSpace.reachable_allocate; eassumption.
Qed.

Lemma BaseSoC_regions_composed rev g sram_size spiflash_size csr_size :
  ∃ s, BaseSoC_init rev g = (Globals BaseSoC_mem_map, inr s)
       ∧ BaseSoC_regions BaseSoC_mem_map s sram_size spiflash_size csr_size
         = Some (composed_regions sram_size spiflash_size csr_size).
Proof.
  rewrite (BaseSoC_init_indep rev g globals0).
  eexists. split; vm_compute; reflexivity.
Qed.

Lemma composed_regions_disjoint sram_size spiflash_size csr_size :
  sram_size ≤ 0x10000000 → spiflash_size ≤ 0x20000000 →
  AddressSpace.pairwise_disjoint
    (composed_regions sram_size spiflash_size csr_size).
Proof.
  intros H1 H2. unfold composed_regions. cbn [AddressSpace.pairwise_disjoint].
  repeat match goal with
         | |- _ ∧ _ => split
         | |- Forall _ [] => constructor
         | |- Forall _ (_ :: _) => constructor
         | |- True => exact I
         end;
    intros (a & Ha & Hb); cbn in Ha, Hb; lia.
Qed.

Lemma composed_regions_names sram_size spiflash_size csr_size :
  AddressSpace.name <$> composed_regions sram_size spiflash_size csr_size
  = ["rom"; "sram"; "spiflash"; "main_ram"; "csr"].
Proof. reflexivity. Qed.

Lemma composed_names_NoDup :
  NoDup ["rom"; "sram"; "spiflash"; "main_ram"; "csr"].
Proof. apply (bool_decide_unpack _). vm_compute. exact I. Qed.

(** C1: in the composed memory map (rom at 0 of size 0x8000, sram at
    0x10000000, spiflash at 0x20000000, main_ram at 0x40000000 of size
    0x400000, csr at 0x82000000; the sizes the file leaves to the framework
    only have to stop short of the next base) no two regions intersect, the
    allocator accepts them all, and a further region at 0x40000000 of length
    0x100 is refused; in general a region that intersects a registered one is
    always refused with RegionOverlapError, so no reachable allocator state
    holds two intersecting regions. *)
Theorem C1_regions_never_overlap :
  (∀ rev g sram_size spiflash_size csr_size,
     sram_size ≤ 0x10000000 → spiflash_size ≤ 0x20000000 →
     ∃ s rs,
       BaseSoC_init rev g = (Globals BaseSoC_mem_map, inr s)
       ∧ BaseSoC_regions BaseSoC_mem_map s sram_size spiflash_size csr_size
         = Some rs
       ∧ rs = composed_regions sram_size spiflash_size csr_size
       ∧ (∀ (i j : nat) r1 r2, i ≠ j → rs !! i = Some r1 → rs !! j = Some r2 →
            ¬ AddressSpace.intersects r1 r2)
       ∧ AddressSpace.allocate_all [] rs = inr rs
       ∧ AddressSpace.allocate rs "extra" 0x40000000 0x100
         = inl (Py.RegionOverlapError "extra"))
  ∧ (∀ st n b sz r,
       r ∈ st → AddressSpace.intersects (AddressSpace.mkRegion n b sz) r →
       AddressSpace.allocate st n b sz = inl (Py.RegionOverlapError n))
  ∧ (∀ st, AddressSpace.reachable st →
       ∀ (i j : nat) r1 r2, i ≠ j → st !! i = Some r1 → st !! j = Some r2 →
         ¬ AddressSpace.intersects r1 r2)
  ∧ (∃ st,
       AddressSpace.allocate_all []
         [ AddressSpace.mkRegion "rom" 0x0 0x8000;
           AddressSpace.mkRegion "sram" 0x10000000 0x1000;
           AddressSpace.mkRegion "main_ram" 0x40000000 0x400000 ] = inr st
       ∧ AddressSpace.reachable st
       ∧ AddressSpace.allocate st "extra" 0x40000000 0x100
         = inl (Py.RegionOverlapError "extra")).
Proof.
  split; [|split; [|split]].
  - intros rev g s1 s2 s3 H1 H2.
    destruct (BaseSoC_regions_composed rev g s1 s2 s3) as (s & Hs & Hrs).
    exists s, (composed_regions s1 s2 s3).
    pose proof (composed_regions_disjoint s1 s2 s3 H1 H2) as Hd.
    split; [exact Hs|]. split; [exact Hrs|]. split; [reflexivity|].
    split; [exact (pairwise_disjoint_lookup _ Hd)|]. split.
    + apply (allocate_all_accepts _ []); [exact Hd|].
      cbn [app]. rewrite composed_regions_names. exact composed_names_NoDup.
    + apply (allocate_overlap _ _ _ _
               (AddressSpace.mkRegion "main_ram" 0x40000000 0x400000)).
      * unfold composed_regions. apply list_elem_of_In. cbn. tauto.
      * exists 0x40000000. cbn. lia.
  - exact allocate_overlap.
  - intros st Hst. apply pairwise_disjoint_lookup, reachable_pairwise_disjoint, Hst.
  - set (rs := [ AddressSpace.mkRegion "rom" 0x0 0x8000;
                 AddressSpace.mkRegion "sram" 0x10000000 0x1000;
                 AddressSpace.mkRegion "main_ram" 0x40000000 0x400000 ]).
    assert (E : AddressSpace.allocate_all [] rs = inr rs)
      by (vm_compute; reflexivity).
    exists rs. split; [exact E|]. split.
    + apply (allocate_all_reachable rs [] rs); [constructor|exact E].
    + vm_compute. reflexivity.
Qed.

Lemma C1_regions_never_overlap_witness :
  (∃ s rs,
     BaseSoC_init "7.0" globals0 = (Globals BaseSoC_mem_map, inr s)
     ∧ BaseSoC_regions BaseSoC_mem_map s 0x1000 0x200000 0x10000 = Some rs
     ∧ rs = composed_regions 0x1000 0x200000 0x10000
     ∧ (∀ (i j : nat) r1 r2, i ≠ j → rs !! i = Some r1 → rs !! j = Some r2 →
          ¬ AddressSpace.intersects r1 r2)
     ∧ AddressSpace.allocate_all [] rs = inr rs
     ∧ AddressSpace.allocate rs "extra" 0x40000000 0x100
       = inl (Py.RegionOverlapError "extra"))
  ∧ AddressSpace.allocate
      [AddressSpace.mkRegion "main_ram" 0x40000000 0x400000]
      "extra" 0x40000000 0x100
    = inl (Py.RegionOverlapError "extra").
Proof.
  split.
  - apply (proj1 C1_regions_never_overlap); lia.
  - apply (proj1 (proj2 C1_regions_never_overlap) _ _ _ _
             (AddressSpace.mkRegion "main_ram" 0x40000000 0x400000)).
    + apply list_elem_of_In. left. reflexivity.
    + exists 0x40000000. cbn. lia.
Defined.

(** C2: the mapped size is min(requested, max): never above the limit, the
    request itself when that fits; under the 4 MiB limit of [max_sdram_size]
    any request of 4 MiB or more, such as 16 MiB or the 4 MiB that
    [add_sdram] asks for, is mapped as a main_ram region of exactly 4 MiB. *)
Theorem C2_mapped_size_clamped :
  (∀ n requested max,
     AddressSpace.clamp n requested max = Z.min requested max
     ∧ AddressSpace.clamp n requested max ≤ max
     ∧ (requested ≤ max → AddressSpace.clamp n requested max = requested))
  ∧ (∀ n requested,
       0x400000 ≤ requested →
       AddressSpace.clamp n requested 0x400000 = 4 * 1024 * 1024)
  ∧ AddressSpace.clamp "main_ram" (16 * mB) (4 * mB) = 4 * mB
  ∧ (∀ rev g sram_size spiflash_size csr_size,
       ∃ s sd rs,
         (BaseSoC_init rev g).2 = inr s
         ∧ sdram s = Some sd
         ∧ max_sdram_size (core s) = 0x400000
         ∧ sdram_size sd = 4 * mB
         ∧ BaseSoC_regions BaseSoC_mem_map s sram_size spiflash_size csr_size
           = Some rs
         ∧ rs !! 3%nat
           = Some (AddressSpace.mkRegion "main_ram" 0x40000000
                     (AddressSpace.clamp "main_ram" (sdram_size sd)
                        (max_sdram_size (core s))))
         ∧ AddressSpace.clamp "main_ram" (sdram_size sd)
             (max_sdram_size (core s)) = 4 * 1024 * 1024).
Proof.
  split; [|split; [|split]].
  - intros n r m. unfold AddressSpace.clamp. rewrite Py_min_is_min. lia.
  - intros n r H. unfold AddressSpace.clamp. rewrite Py_min_is_min. lia.
  - reflexivity.
  - intros rev g s1 s2 s3.
    rewrite (BaseSoC_init_indep rev g globals0).
    eexists _, _, _.
    split; [vm_compute; reflexivity|].
    split; [reflexivity|].
    split; [reflexivity|].
    split; [reflexivity|].
    split; [vm_compute; reflexivity|].
    split; reflexivity.
Qed.

Lemma C2_mapped_size_clamped_witness :
  AddressSpace.clamp "main_ram" 0x100000 0x400000 = 0x100000
  ∧ AddressSpace.clamp "main_ram" 0x1000000 0x400000 = 4 * 1024 * 1024.
Proof.
  split.
  - apply (proj1 C2_mapped_size_clamped "main_ram" 0x100000 0x400000). lia.
  - apply (proj1 (proj2 C2_mapped_size_clamped) "main_ram" 0x1000000). lia.
Defined.

(** ** Composition and the shared table *)

(** C7 does not hold as stated: composing writes the class-level table
    [SoCCore.mem_map].  Started with an empty table, the table afterwards
    has an entry for [rom]. *)
Lemma C7_composition_writes_shared_table :
  SoCCore_mem_map globals0 !! "rom" = None
  ∧ SoCCore_mem_map (BaseSoC_init "7.0" globals0).1 !! "rom" = Some 0
  ∧ (BaseSoC_init "7.0" globals0).1 ≠ globals0
  ∧ ¬ (∀ rev g, (BaseSoC_init rev g).1 = g).
Proof.
  assert (H1 : SoCCore_mem_map globals0 !! "rom" = None)
    by (vm_compute; reflexivity).
  assert (H2 : SoCCore_mem_map (BaseSoC_init "7.0" globals0).1 !! "rom" = Some 0)
    by (vm_compute; reflexivity).
  assert (H3 : (BaseSoC_init "7.0" globals0).1 ≠ globals0).
  { intros E. rewrite E, H1 in H2. discriminate H2. }
  split; [exact H1|]. split; [exact H2|]. split; [exact H3|].
  intros H. exact (H3 (H "7.0" globals0)).
Qed.

(** C7, as the code has it: the board revision is the only input, and
    whatever the framework does behind the calls, a composition ends the
    same way (the same SoC object or the same exception) and leaves the
    same shared table whatever that table held before; so the table found
    is overwritten, never used, and composing again in the state a
    composition has left gives the same result once more. *)
Theorem C7_composition_deterministic
    (fw : framework) (rev : string) (g1 g2 : globals) :
  (BaseSoC_init_with fw rev g1).2 = (BaseSoC_init_with fw rev g2).2
  ∧ (BaseSoC_init_with fw rev g1).1 = (BaseSoC_init_with fw rev g2).1
  ∧ BaseSoC_init_with fw rev (BaseSoC_init_with fw rev g1).1
    = BaseSoC_init_with fw rev g1.
Proof.
  assert (E : ∀ g g', BaseSoC_init_with fw rev g = BaseSoC_init_with fw rev g')
    by reflexivity.
  rewrite (E g1 g2).
  split; [reflexivity|]. split; [reflexivity | apply E].
Qed.

(** ** Build and load *)

Lemma main_unfold (a : args) (e : env) (g : globals) :
  main a e g
  = match build_phase a e with
    | (evs, inl x) => Run evs (Raised x) (Globals BaseSoC_mem_map)
    | (evs, inr _) => Run (evs ++ load_phase a e) Returned (Globals BaseSoC_mem_map)
    end.
Proof.
  unfold main. destruct (BaseSoC_init_succeeds "7.0" g) as [s ->]. reflexivity.
Qed.

Lemma build_phase_cases (a : args) (e : env) :
  build_phase a e
  = if build a then
      ([Prepare "build/colorlight_5a_75b/csr.json" ["TERM_MINI"]; Synthesis],
       if (synthesis e).1 =? 0 then inr tt
       else inl (Py.ExternalToolFailure (synthesis e).1 (synthesis e).2))
    else ([Prepare "build/colorlight_5a_75b/csr.json" ["TERM_MINI"]], inr tt).
Proof. unfold build_phase, Builder_build. destruct (build a); reflexivity. Qed.

Lemma format_exception_only_nonempty (x : Py.exn) :
  format_exception_only x ≠ "".
Proof.
  unfold format_exception_only.
  destruct x; cbn; try discriminate;
    match goal with |- context [match ?s with EmptyString => _ | _ => _ end] =>
      destruct s end; cbn; discriminate.
Qed.

(** C4 does not hold of [main]: with [--load] and without [--build], no
    synthesis is run, the state after the build step is Unbuilt, and still
    the device programmer is started on the bitstream path and the run ends
    normally, with no InvalidStateError. *)
Lemma C4_load_without_build_programs :
  state_after_build {| build := false; load := true; cable := "dirtyJtag" |}
    env_ok = Unbuilt
  ∧ trace (main {| build := false; load := true; cable := "dirtyJtag" |}
             env_ok globals0)
    = [ Prepare "build/colorlight_5a_75b/csr.json" ["TERM_MINI"];
        Print "dirtyJtag";
        System "openFPGALoader -c dirtyJtag build/colorlight_5a_75b/gateware/colorlight_5a_75b.bit" 0 ]
  ∧ programmed (main {| build := false; load := true; cable := "dirtyJtag" |}
                  env_ok globals0) = true
  ∧ result (main {| build := false; load := true; cable := "dirtyJtag" |}
              env_ok globals0) = Returned
  ∧ result (main {| build := false; load := true; cable := "dirtyJtag" |}
              env_ok globals0) ≠ Raised Py.InvalidStateError.
Proof.
  split; [vm_compute; reflexivity|].
  split; [vm_compute; reflexivity|].
  split; [vm_compute; reflexivity|].
  split; [vm_compute; reflexivity|].
  vm_compute. intros H. discriminate H.
Qed.

(** C4, as the code has it: the device programmer is started exactly when
    loading is requested and the build step did not raise, whether or not
    synthesis was requested; it is then started once, on
    [gateware_dir/build_name.bit] with the chosen cable, from the state
    Built or Unbuilt; and [main] never raises InvalidStateError. *)
Theorem C4_load_runs_iff_requested (a : args) (e : env) (g : globals) :
  (programmed (main a e g) = true
   ↔ load a = true ∧ (build a = false ∨ (synthesis e).1 = 0))
  ∧ (programmed (main a e g) = true →
       state_after_build a e = (if build a then Built else Unbuilt)
       ∧ List.filter is_system (trace (main a e g))
         = [System ("openFPGALoader -c " +:+ cable a +:+ " "
                    +:+ Py.path_join (gateware_dir e) (build_name e +:+ ".bit"))
                   (os_system e (load_command a e))])
  ∧ result (main a e g) ≠ Raised Py.InvalidStateError.
Proof.
  rewrite main_unfold. unfold state_after_build, load_phase.
  rewrite build_phase_cases.
  destruct a as [b l c]; cbn [build load cable].
  destruct b, l; cbn.
  all: try destruct (Z.eqb_spec (synthesis e).1 0) as [E|E]; cbn.
  all: split; [|split]; try discriminate; try (intros H; discriminate H).
  all: try (intros _; split; reflexivity).
  all: split; try (intros [H _]; discriminate H);
    try (intros H; discriminate H).
  all: try (intros _; split; [reflexivity | auto]).
  all: try (intros _; reflexivity).
  intros [_ [H|H]]; [discriminate H | destruct (E H)].
Qed.

Lemma C4_load_runs_iff_requested_witness :
  programmed (main {| build := false; load := true; cable := "dirtyJtag" |}
                env_ok globals0) = true
  ∧ state_after_build {| build := false; load := true; cable := "dirtyJtag" |}
      env_ok = Unbuilt.
Proof.
  pose proof (C4_load_runs_iff_requested
                {| build := false; load := true; cable := "dirtyJtag" |}
                env_ok globals0) as (Hiff & Hst & _).
  assert (Hp : programmed (main {| build := false; load := true;
                                   cable := "dirtyJtag" |} env_ok globals0) = true).
  { apply Hiff. split; [reflexivity | left; reflexivity]. }
  split; [exact Hp | exact (proj1 (Hst Hp))].
Defined.

(** The device-tree helpers of the same class check the exit status of the
    tool they start: a failing tool makes them raise. *)
Lemma compile_dts_raises_on_failure (e : env) (board_name : string) :
  (∀ cmd, shell e cmd ≠ 0) →
  ∃ rc cmd, (compile_dts e board_name).2 = inl (Py.CalledProcessError rc cmd)
            ∧ rc ≠ 0
  ∧ ∃ rc' cmd', (generate_dts e board_name).2
                = inl (Py.CalledProcessError rc' cmd') ∧ rc' ≠ 0.
Proof.
  intros H. unfold compile_dts, generate_dts, check_call. cbn [snd].
  eexists _, _. split.
  - destruct (Z.eqb_spec (shell e
      ("dtc -O dtb -o " +:+ Py.path_join "buildroot" "rv32.dtb" +:+ " "
       +:+ Py.path_join (Py.path_join "build" board_name)
             (board_name +:+ ".dts"))) 0) as [E|E].
    + destruct (H _ E).
    + reflexivity.
  - split; [apply H|]. eexists _, _.
    match goal with |- context [?x =? 0] => destruct (Z.eqb_spec x 0) as [E|E] end.
    + destruct (H _ E).
    + split; [reflexivity | apply H].
Qed.

(** Whatever the device programmer answers, a run whose build step returned
    ends normally. *)
Lemma load_status_ignored (a : args) (e : env) (g : globals) :
  (build_phase a e).2 = inr tt →
  result (main a e g) = Returned
  ∧ exit_status (result (main a e g)) = 0
  ∧ stderr (result (main a e g)) = [].
Proof.
  intros H. rewrite main_unfold.
  destruct (build_phase a e) as [evs [x|[]]]; cbn in H; [discriminate H|].
  cbn. auto.
Qed.

(** C5 fails on [main]: build and load requested, synthesis succeeds, the
    device programmer exits with status 1, so that [os.system] returns
    256.  [main] has discarded that value: it returns normally, the process exits with status 0 and
    nothing is written to the error stream. *)
Theorem C5_load_failure_swallowed :
  trace (main {| build := true; load := true; cable := "dirtyJtag" |}
           env_load_fails globals0)
  = [ Prepare "build/colorlight_5a_75b/csr.json" ["TERM_MINI"];
      Synthesis;
      Print "dirtyJtag";
      System "openFPGALoader -c dirtyJtag build/colorlight_5a_75b/gateware/colorlight_5a_75b.bit" 256 ]
  ∧ final_state {| build := true; load := true; cable := "dirtyJtag" |}
      env_load_fails globals0 = LoadFailed 256
  ∧ result (main {| build := true; load := true; cable := "dirtyJtag" |}
              env_load_fails globals0) = Returned
  ∧ exit_status (result (main {| build := true; load := true;
                                 cable := "dirtyJtag" |}
                           env_load_fails globals0)) = 0
  ∧ stderr (result (main {| build := true; load := true; cable := "dirtyJtag" |}
                      env_load_fails globals0)) = [].
Proof. repeat (split; [vm_compute; reflexivity|]). vm_compute. reflexivity. Qed.




(** * Further properties of the code *)

(** ** [configure_boot] *)



(** X2: [configure_boot] never writes the shared table, and when it
    returns, the object differs from the one it was given at most in the
    constant FLASH_BOOT_ADDRESS: every other constant and every other part
    of the object is as before. *)
Theorem X2_configure_boot_frame (s s' : soc) (g : globals) :
  (configure_boot s g).1 = g
  ∧ ((configure_boot s g).2 = inr s' →
       revision s' = revision s ∧ core s' = core s ∧ attrs s' = attrs s
       ∧ platform_requests s' = platform_requests s ∧ crg s' = crg s
       ∧ sdram s' = sdram s ∧ csrs s' = csrs s ∧ ethernet s' = ethernet s
       ∧ spi_flash s' = spi_flash s
       ∧ ∀ n, n ≠ "FLASH_BOOT_ADDRESS" → constants s' !! n = constants s !! n).
Proof.
  unfold configure_boot.
  destruct (hasattr s "spiflash").
  - unfold mbind, M_bind, get_mem_map, lift, Py.getitem, mret, M_ret.
    destruct (SoCCore_mem_map g !! "spiflash") as [b|]; cbn.
    + split; [reflexivity|]. intros [= <-]. cbn.
      repeat (split; [reflexivity|]).
      intros n Hn. apply lookup_insert_ne. congruence.
    + split; [reflexivity|]. intros H. discriminate H.
  - cbn. split; [reflexivity|]. intros [= <-].
    repeat (split; [reflexivity|]). reflexivity.
Qed.

Lemma X2_configure_boot_frame_witness :
  ∃ s s', (BaseSoC_init "7.0" globals0).2 = inr s
          ∧ (configure_boot s (Globals BaseSoC_mem_map)).2 = inr s'
          ∧ attrs s' = attrs s ∧ sdram s' = sdram s.
Proof.
  eexists _, _.
  split; [vm_compute; reflexivity|].
  match goal with |- ?P ∧ _ =>
    assert (H : P) by (vm_compute; reflexivity) end.
  split; [exact H|].
  pose proof (proj2 (X2_configure_boot_frame _ _ _) H)
    as (_ & _ & Ha & _ & _ & Hs & _).
  split; [exact Ha | exact Hs].
Defined.

(** X3: on the composed SoC the boot address that [configure_boot]
    publishes lies in the flash region exactly when the flash is larger
    than 1 MiB, and in no other region of the memory map (the sram region
    being kept below the flash base). *)
Theorem X3_boot_address_placement (rev : string) (g : globals)
    (sram_size spiflash_size csr_size : Z) :
  sram_size ≤ 0x10000000 →
  ∃ g' s' addr rs,
    mbind configure_boot (BaseSoC_init rev) g = (g', inr s')
    ∧ constants s' !! "FLASH_BOOT_ADDRESS" = Some addr
    ∧ BaseSoC_regions (SoCCore_mem_map g') s' sram_size spiflash_size csr_size
      = Some rs
    ∧ ∀ r, r ∈ rs →
        (contains r addr
         ↔ AddressSpace.name r = "spiflash" ∧ 0x100000 < spiflash_size).
Proof.
  intros Hsram.
  assert (E : mbind configure_boot (BaseSoC_init rev) g
              = mbind configure_boot (BaseSoC_init rev) globals0) by reflexivity.
  rewrite E. clear E.
  eexists _, _, _, _.
  split; [vm_compute; reflexivity|].
  split; [vm_compute; reflexivity|].
  split; [vm_compute; reflexivity|].
  intros r Hr. apply list_elem_of_In in Hr. unfold contains.
  destruct Hr as [<-|[<-|[<-|[<-|[<-|[]]]]]]; cbn;
    (split; [intros H | intros [Hn H]]); try discriminate Hn; try lia.
  split; [reflexivity | lia].
Qed.

Lemma X3_boot_address_placement_witness :
  ∃ g' s' addr rs,
    mbind configure_boot (BaseSoC_init "7.0") globals0 = (g', inr s')
    ∧ constants s' !! "FLASH_BOOT_ADDRESS" = Some addr
    ∧ BaseSoC_regions (SoCCore_mem_map g') s' 0x2000 0x200000 0x10000 = Some rs
    ∧ ∀ r, r ∈ rs →
        (contains r addr
         ↔ AddressSpace.name r = "spiflash" ∧ 0x100000 < 0x200000).
Proof.
  apply (X3_boot_address_placement "7.0" globals0 0x2000 0x200000 0x10000).
  lia.
Defined.

(** ** The device-tree helpers *)

Lemma check_call_outcome (e : env) (cmd : string) :
  (check_call e cmd).1 = [System cmd (shell e cmd)]
  ∧ ((check_call e cmd).2 = inr tt ↔ shell e cmd = 0)
  ∧ (shell e cmd ≠ 0 →
       (check_call e cmd).2 = inl (Py.CalledProcessError (shell e cmd) cmd)).
Proof.
  unfold check_call. cbn [fst snd].
  destruct (Z.eqb_spec (shell e cmd) 0) as [E|E].
  - split; [reflexivity|]. split; [tauto|]. intros H. destruct (H E).
  - split; [reflexivity|]. split; [|reflexivity].
    split; [intros H; discriminate H | intros H; destruct (E H)].
Qed.

(** X4: [generate_dts] and [compile_dts] each run exactly one shell
    command; they return normally exactly when that command exits with
    status 0, and otherwise raise [CalledProcessError] carrying the exit
    status and the very command that was run. *)
Theorem X4_dts_helpers_check_exit_status (e : env) (board_name : string) :
  (∃ cmd,
     (generate_dts e board_name).1 = [System cmd (shell e cmd)]
     ∧ ((generate_dts e board_name).2 = inr tt ↔ shell e cmd = 0)
     ∧ (shell e cmd ≠ 0 →
          (generate_dts e board_name).2
          = inl (Py.CalledProcessError (shell e cmd) cmd)))
  ∧ (∃ cmd,
       (compile_dts e board_name).1 = [System cmd (shell e cmd)]
       ∧ ((compile_dts e board_name).2 = inr tt ↔ shell e cmd = 0)
       ∧ (shell e cmd ≠ 0 →
            (compile_dts e board_name).2
            = inl (Py.CalledProcessError (shell e cmd) cmd))).
Proof.
  split; eexists; apply check_call_outcome.
Qed.

Lemma X4_dts_helpers_check_exit_status_witness :
  (compile_dts env_load_fails "colorlight_5a_75b").2
  = inl (Py.CalledProcessError 1
           "dtc -O dtb -o buildroot/rv32.dtb build/colorlight_5a_75b/colorlight_5a_75b.dts").
Proof.
  destruct (X4_dts_helpers_check_exit_status env_load_fails "colorlight_5a_75b")
    as [_ (cmd & Hev & _ & Hfail)].
  rewrite Hfail; [|cbn; lia].
  injection Hev as <-. reflexivity.
Defined.





Lemma path_join_absolute (a b : string) :
  starts_with_slash b = true → Py.path_join a b = b.
Proof.
  destruct b as [|c r]; cbn; [intros H; discriminate H|].
  intros ->. reflexivity.
Qed.



Lemma starts_with_slash_app (b c : string) :
  b ≠ "" → starts_with_slash (b +:+ c) = starts_with_slash b.
Proof. destruct b; [intros H; destruct (H eq_refl) | reflexivity]. Qed.




(** X6: a board name that begins with a slash takes the device tree out of
    the [build] directory: the source is written to and read from
    [NAME.dts], and [csr.json] is looked for under [NAME] itself. *)
Theorem X6_dts_absolute_board_name (e : env) (b : string) :
  starts_with_slash b = true →
  ∃ st1 st2,
    (generate_dts e b).1
    = [System ("./json2dts.py " +:+ Py.path_join b "csr.json"
               +:+ " > " +:+ b +:+ ".dts") st1]
    ∧ (compile_dts e b).1
      = [System ("dtc -O dtb -o buildroot/rv32.dtb " +:+ b +:+ ".dts") st2].
Proof.
  intros Hs.
  assert (Hb : b ≠ "") by (intros ->; discriminate Hs).
  unfold generate_dts, compile_dts, check_call. cbn [fst].
  rewrite (path_join_absolute "build" b Hs).
  rewrite (path_join_absolute b (b +:+ ".dts"))
    by (rewrite starts_with_slash_app; assumption).
  eexists _, _. split; reflexivity.
Qed.

Lemma X6_dts_absolute_board_name_witness :
  ∃ st1 st2,
    (generate_dts env_ok "/tmp/x").1
    = [System "./json2dts.py /tmp/x/csr.json > /tmp/x.dts" st1]
    ∧ (compile_dts env_ok "/tmp/x").1
      = [System "dtc -O dtb -o buildroot/rv32.dtb /tmp/x.dts" st2].
Proof.
  apply (X6_dts_absolute_board_name env_ok "/tmp/x"). reflexivity.
Defined.

(** ** [main] *)

(** X7: how [main] ends depends only on [--build] and on what synthesis
    answers: two runs that agree on these end the same way, whatever
    [--load], the cable, the device programmer and the shared table found
    at the start are.  The exit status is 0 unless a build was requested
    and synthesis failed. *)
Theorem X7_main_result_ignores_load (a a' : args) (e e' : env) (g g' : globals) :
  build a = build a' → synthesis e = synthesis e' →
  result (main a e g) = result (main a' e' g')
  ∧ (exit_status (result (main a e g)) = 0
     ↔ build a = false ∨ (synthesis e).1 = 0).
Proof.
  intros Hb Hs. rewrite !main_unfold, !build_phase_cases, <- Hb, <- Hs.
  destruct (build a); [destruct (Z.eqb_spec (synthesis e).1 0) as [E|E]|]; cbn.
  - repeat split; auto.
  - repeat split; try reflexivity.
    + intros H. discriminate H.
    + intros [H|H]; [discriminate H | destruct (E H)].
  - repeat split; auto.
Qed.

Lemma X7_main_result_ignores_load_witness :
  result (main {| build := true; load := true; cable := "dirtyJtag" |}
            env_load_fails globals0)
  = result (main {| build := true; load := false; cable := "ft2232" |}
              env_ok (Globals BaseSoC_mem_map)).
Proof.
  apply (X7_main_result_ignores_load
           {| build := true; load := true; cable := "dirtyJtag" |}
           {| build := true; load := false; cable := "ft2232" |}
           env_load_fails env_ok globals0 (Globals BaseSoC_mem_map));
    reflexivity.
Defined.

(** ** Well-formedness of what is composed *)

(** X8: at every frequency the clock generator is well formed: it declares
    two distinct domains and requests one PLL output for each, in that
    order; it requests each platform resource once; the PLL input and the
    output pad of every special are requested resources; and every domain
    that a special synchronizes or is driven from is a declared one. *)
Theorem X8_crg_well_formed (f : Z) :
  NoDup (CRG.clock_domains (CRG.init f))
  ∧ (λ o, o.1.1) <$> CRG.clkouts (CRG.init f) = CRG.clock_domains (CRG.init f)
  ∧ NoDup (CRG.requests (CRG.init f))
  ∧ (∀ pad fr, (pad, fr) ∈ CRG.clkins (CRG.init f) →
       pad ∈ CRG.requests (CRG.init f))
  ∧ (∀ i1 i2 o clk, CRG.DDROutput i1 i2 o clk ∈ CRG.specials (CRG.init f) →
       o ∈ CRG.requests (CRG.init f) ∧ clk ∈ CRG.clock_domains (CRG.init f))
  ∧ (∀ cd r, CRG.AsyncResetSynchronizer cd r ∈ CRG.specials (CRG.init f) →
       cd ∈ CRG.clock_domains (CRG.init f)).
Proof.
  split; [apply (bool_decide_unpack _); vm_compute; exact I|].
  split; [reflexivity|].
  split; [apply (bool_decide_unpack _); vm_compute; exact I|].
  split; [|split].
  - cbn. intros pad fr H. apply list_elem_of_In in H.
    destruct H as [[= <- <-]|[]]. apply list_elem_of_In. cbn. tauto.
  - cbn. intros i1 i2 o clk H. apply list_elem_of_In in H.
    destruct H as [H|[[= <- <- <- <-]|[]]]; [discriminate H|].
    split; apply list_elem_of_In; cbn; tauto.
  - cbn. intros cd r H. apply list_elem_of_In in H.
    destruct H as [[= <- <-]|[H|[]]]; [|discriminate H].
    apply list_elem_of_In. cbn. tauto.
Qed.

Lemma X8_crg_well_formed_witness :
  "sdram_clock" ∈ CRG.requests (CRG.init 66000000)
  ∧ "sys_ps" ∈ CRG.clock_domains (CRG.init 66000000).
Proof.
  apply (proj1 (proj2 (proj2 (proj2 (proj2 (X8_crg_well_formed 66000000)))))
           1 0 "sdram_clock" "sys_ps").
  apply list_elem_of_In. right. left. reflexivity.
Defined.

(** X9: the composed SoC refers only to what it has: every platform
    resource is requested once over the clock generator and the SoC
    together; the submodule attributes are distinct; the PHYs handed to
    [add_sdram] and [add_ethernet] and the CSR that is added are submodules
    of the object; and the revision recorded is the one given. *)
Theorem X9_soc_references_resolved (rev : string) (g : globals) :
  ∃ s c,
    (BaseSoC_init rev g).2 = inr s
    ∧ crg s = Some c
    ∧ revision s = rev
    ∧ NoDup (CRG.requests c ++ platform_requests s)
    ∧ NoDup (attrs s)
    ∧ (∀ sd, sdram s = Some sd → sdram_phy sd ∈ attrs s)
    ∧ (∀ phy, ethernet s = Some phy → phy ∈ attrs s)
    ∧ (∀ n, n ∈ csrs s → n ∈ attrs s)
    ∧ (is_Some (spi_flash s) ↔ hasattr s "spiflash" = true).
Proof.
  rewrite (BaseSoC_init_indep rev g globals0).
  eexists _, _.
  split; [vm_compute; reflexivity|].
  split; [reflexivity|]. split; [reflexivity|].
  split; [apply (bool_decide_unpack _); vm_compute; exact I|].
  split; [apply (bool_decide_unpack _); vm_compute; exact I|].
  split; [|split; [|split]].
  - cbn. intros sd [= <-]. cbn. apply list_elem_of_In. cbn. tauto.
  - cbn. intros phy [= <-]. apply list_elem_of_In. cbn. tauto.
  - cbn. intros n H. apply list_elem_of_In in H. destruct H as [<-|[]].
    apply list_elem_of_In. cbn. tauto.
  - split; [intros _; vm_compute; reflexivity | intros _; eexists; reflexivity].
Qed.

Lemma X9_soc_references_resolved_witness :
  ∃ s, (BaseSoC_init "7.0" globals0).2 = inr s ∧ "ethphy" ∈ attrs s.
Proof.
  destruct (X9_soc_references_resolved "7.0" globals0)
    as (s & c & Hs & _ & _ & _ & _ & _ & _ & Hcsr & _).
  exists s. split; [exact Hs|].
  apply Hcsr.
  vm_compute in Hs. injection Hs as <-.
  apply list_elem_of_In. left. reflexivity.
Defined.
